(** * Broker response error classification of afkak ([afkak/common.py])

    A shallow embedding of the [BrokerResponseError] class hierarchy, the
    [BrokerResponseError.errnos] registry and the [_check_error] classifier,
    followed by the properties of the classifier. *)

From Stdlib Require Import ZArith String List.
From stdpp Require Import base option list gmap strings fin_maps.

Local Open Scope string_scope.
Local Open Scope Z_scope.

(** ** Constants *)

Definition KAFKA_SUCCESS : Z := 0.

(** ** The exception classes

    One constructor per [class] statement below [BrokerResponseError]; the
    constructor is the class object, so two names bound to one class are one
    value. *)

Inductive pyclass : Type :=
  | BrokerResponseError
  | RetriableBrokerResponseError
  | UnknownError
  | OffsetOutOfRangeError
  | CorruptMessage
  | UnknownTopicOrPartitionError
  | InvalidFetchRequestError
  | LeaderNotAvailableError
  | NotLeaderForPartitionError
  | RequestTimedOutError
  | BrokerNotAvailableError
  | ReplicaNotAvailableError
  | MessageSizeTooLargeError
  | StaleControllerEpochError
  | OffsetMetadataTooLargeError
  | NetworkException
  | CoordinatorLoadInProgress
  | CoordinatorNotAvailable
  | NotCoordinator
  | InvalidTopic
  | RecordListTooLarge
  | NotEnoughReplicas
  | NotEnoughReplicasAfterAppend
  | InvalidRequiredAcks
  | IllegalGeneration
  | InconsistentGroupProtocol
  | InvalidGroupId
  | UnknownMemberId
  | InvalidSessionTimeout
  | RebalanceInProgress
  | InvalidCommitOffsetSize
  | TopicAuthorizationFailed
  | GroupAuthorizationFailed
  | ClusterAuthorizationFailed
  | InvalidTimestamp
  | UnsupportedSaslMechanism
  | IllegalSaslState
  | UnsupportedVersion
  | TopicAlreadyExists
  | InvalidPartitions
  | InvalidReplicationFactor
  | InvalidReplicaAssignment
  | InvalidConfig
  | NotController
  | InvalidRequest
  | UnsupportedForMessageFormat
  | PolicyViolation
  | OutOfOrderSequenceNumber
  | DuplicateSequenceNumber
  | InvalidProducerEpoch
  | InvalidTxnState
  | InvalidProducerIdMapping
  | InvalidTransactionTimeout
  | ConcurrentTransactions
  | TransactionCoordinatorFenced
  | TransactionalIdAuthorizationFailed
  | SecurityDisabled
  | OperationNotAttempted
  | KafkaStorageError
  | LogDirNotFound
  | SaslAuthenticationFailed
  | UnknownProducerId
  | ReassignmentInProgress
  | DelegationTokenAuthDisabled
  | DelegationTokenNotFound
  | DelegationTokenOwnerMismatch
  | DelegationTokenRequestNotAllowed
  | DelegationTokenAuthorizationFailed
  | DelegationTokenExpired
  | InvalidPrincipalType
  | NonEmptyGroup
  | GroupIdNotFound
  | FetchSessionIdNotFound
  | InvalidFetchSessionEpoch
  | ListenerNotFound.

#[global] Instance pyclass_eq_dec : EqDecision pyclass.
Proof. solve_decision. Defined.

(** What a [class] statement records: the name it was declared with
    ([__name__]), its base class inside the hierarchy, and the attributes its
    body assigns.  An attribute the body does not assign is [None]; the
    [message] attribute can be assigned Python's [None], which is
    [Some None] here. *)

Record class_stmt : Type := ClassStmt {
  cls_name : string;
  cls_base : option pyclass;
  cls_errno : option Z;
  cls_message : option (option string);
  cls_retriable : option bool
}.

(** A class whose body is [errno = n] and [message = s]. *)
Definition error_class (name : string) (base : pyclass) (n : Z) (s : string)
  : class_stmt :=
  ClassStmt name (Some base) (Some n) (Some (Some s)) None.

(** [BrokerResponseError] derives from [KafkaError], whose body is [pass]:
    nothing above [BrokerResponseError] assigns [errno] or [retriable], and
    [message] is assigned by [BrokerResponseError] itself, so attribute
    resolution never has to look further up. *)
Definition class_def (c : pyclass) : class_stmt :=
  match c with
  | BrokerResponseError =>
      ClassStmt "BrokerResponseError" None None (Some None) (Some false)
  | RetriableBrokerResponseError =>
      ClassStmt "RetriableBrokerResponseError" (Some BrokerResponseError)
                None None (Some true)
  | UnknownError =>
      error_class "UnknownError" BrokerResponseError (-1) "UNKNOWN_SERVER_ERROR"
  | OffsetOutOfRangeError =>
      error_class "OffsetOutOfRangeError" BrokerResponseError 1 "OFFSET_OUT_OF_RANGE"
  | CorruptMessage =>
      error_class "CorruptMessage" RetriableBrokerResponseError 2 "CORRUPT_MESSAGE"
  | UnknownTopicOrPartitionError =>
      error_class "UnknownTopicOrPartitionError" RetriableBrokerResponseError 3 "UNKNOWN_TOPIC_OR_PARTITION"
  | InvalidFetchRequestError =>
      error_class "InvalidFetchRequestError" BrokerResponseError 4 "INVALID_FETCH_SIZE"
  | LeaderNotAvailableError =>
      error_class "LeaderNotAvailableError" RetriableBrokerResponseError 5 "LEADER_NOT_AVAILABLE"
  | NotLeaderForPartitionError =>
      error_class "NotLeaderForPartitionError" RetriableBrokerResponseError 6 "NOT_LEADER_FOR_PARTITION"
  | RequestTimedOutError =>
      error_class "RequestTimedOutError" RetriableBrokerResponseError 7 "REQUEST_TIMED_OUT"
  | BrokerNotAvailableError =>
      error_class "BrokerNotAvailableError" BrokerResponseError 8 "BROKER_NOT_AVAILABLE"
  | ReplicaNotAvailableError =>
      error_class "ReplicaNotAvailableError" BrokerResponseError 9 "REPLICA_NOT_AVAILABLE"
  | MessageSizeTooLargeError =>
      error_class "MessageSizeTooLargeError" BrokerResponseError 10 "MESSAGE_SIZE_TOO_LARGE"
  | StaleControllerEpochError =>
      error_class "StaleControllerEpochError" BrokerResponseError 11 "STALE_CONTROLLER_EPOCH"
  | OffsetMetadataTooLargeError =>
      error_class "OffsetMetadataTooLargeError" BrokerResponseError 12 "OFFSET_METADATA_TOO_LARGE"
  | NetworkException =>
      error_class "NetworkException" RetriableBrokerResponseError 13 "NETWORK_EXCEPTION"
  | CoordinatorLoadInProgress =>
      error_class "CoordinatorLoadInProgress" RetriableBrokerResponseError 14 "COORDINATOR_LOAD_IN_PROGRESS"
  | CoordinatorNotAvailable =>
      error_class "CoordinatorNotAvailable" RetriableBrokerResponseError 15 "COORDINATOR_NOT_AVAILABLE"
  | NotCoordinator =>
      error_class "NotCoordinator" RetriableBrokerResponseError 16 "NOT_COORDINATOR"
  | InvalidTopic =>
      error_class "InvalidTopic" BrokerResponseError 17 "INVALID_TOPIC_EXCEPTION"
  | RecordListTooLarge =>
      error_class "RecordListTooLarge" BrokerResponseError 18 "RECORD_LIST_TOO_LARGE"
  | NotEnoughReplicas =>
      error_class "NotEnoughReplicas" RetriableBrokerResponseError 19 "NOT_ENOUGH_REPLICAS"
  | NotEnoughReplicasAfterAppend =>
      error_class "NotEnoughReplicasAfterAppend" RetriableBrokerResponseError 20 "NOT_ENOUGH_REPLICAS_AFTER_APPEND"
  | InvalidRequiredAcks =>
      error_class "InvalidRequiredAcks" BrokerResponseError 21 "INVALID_REQUIRED_ACKS"
  | IllegalGeneration =>
      error_class "IllegalGeneration" BrokerResponseError 22 "ILLEGAL_GENERATION"
  | InconsistentGroupProtocol =>
      error_class "InconsistentGroupProtocol" BrokerResponseError 23 "INCONSISTENT_GROUP_PROTOCOL"
  | InvalidGroupId =>
      error_class "InvalidGroupId" BrokerResponseError 24 "INVALID_GROUP_ID"
  | UnknownMemberId =>
      error_class "UnknownMemberId" BrokerResponseError 25 "UNKNOWN_MEMBER_ID"
  | InvalidSessionTimeout =>
      error_class "InvalidSessionTimeout" BrokerResponseError 26 "INVALID_SESSION_TIMEOUT"
  | RebalanceInProgress =>
      error_class "RebalanceInProgress" BrokerResponseError 27 "REBALANCE_IN_PROGRESS"
  | InvalidCommitOffsetSize =>
      error_class "InvalidCommitOffsetSize" BrokerResponseError 28 "INVALID_COMMIT_OFFSET_SIZE"
  | TopicAuthorizationFailed =>
      error_class "TopicAuthorizationFailed" BrokerResponseError 29 "TOPIC_AUTHORIZATION_FAILED"
  | GroupAuthorizationFailed =>
      error_class "GroupAuthorizationFailed" BrokerResponseError 30 "GROUP_AUTHORIZATION_FAILED"
  | ClusterAuthorizationFailed =>
      error_class "ClusterAuthorizationFailed" BrokerResponseError 31 "CLUSTER_AUTHORIZATION_FAILED"
  | InvalidTimestamp =>
      error_class "InvalidTimestamp" BrokerResponseError 32 "INVALID_TIMESTAMP"
  | UnsupportedSaslMechanism =>
      error_class "UnsupportedSaslMechanism" BrokerResponseError 33 "UNSUPPORTED_SASL_MECHANISM"
  | IllegalSaslState =>
      error_class "IllegalSaslState" BrokerResponseError 34 "ILLEGAL_SASL_STATE"
  | UnsupportedVersion =>
      error_class "UnsupportedVersion" BrokerResponseError 35 "UNSUPPORTED_VERSION"
  | TopicAlreadyExists =>
      error_class "TopicAlreadyExists" BrokerResponseError 36 "TOPIC_ALREADY_EXISTS"
  | InvalidPartitions =>
      error_class "InvalidPartitions" BrokerResponseError 37 "INVALID_PARTITIONS"
  | InvalidReplicationFactor =>
      error_class "InvalidReplicationFactor" BrokerResponseError 38 "INVALID_REPLICATION_FACTOR"
  | InvalidReplicaAssignment =>
      error_class "InvalidReplicaAssignment" BrokerResponseError 39 "INVALID_REPLICA_ASSIGNMENT"
  | InvalidConfig =>
      error_class "InvalidConfig" BrokerResponseError 40 "INVALID_CONFIG"
  | NotController =>
      error_class "NotController" RetriableBrokerResponseError 41 "NOT_CONTROLLER"
  | InvalidRequest =>
      error_class "InvalidRequest" BrokerResponseError 42 "INVALID_REQUEST"
  | UnsupportedForMessageFormat =>
      error_class "UnsupportedForMessageFormat" BrokerResponseError 43 "UNSUPPORTED_FOR_MESSAGE_FORMAT"
  | PolicyViolation =>
      error_class "PolicyViolation" BrokerResponseError 44 "POLICY_VIOLATION"
  | OutOfOrderSequenceNumber =>
      error_class "OutOfOrderSequenceNumber" BrokerResponseError 45 "OUT_OF_ORDER_SEQUENCE_NUMBER"
  | DuplicateSequenceNumber =>
      error_class "DuplicateSequenceNumber" BrokerResponseError 46 "DUPLICATE_SEQUENCE_NUMBER"
  | InvalidProducerEpoch =>
      error_class "InvalidProducerEpoch" BrokerResponseError 47 "INVALID_PRODUCER_EPOCH"
  | InvalidTxnState =>
      error_class "InvalidTxnState" BrokerResponseError 48 "INVALID_TXN_STATE"
  | InvalidProducerIdMapping =>
      error_class "InvalidProducerIdMapping" BrokerResponseError 49 "INVALID_PRODUCER_ID_MAPPING"
  | InvalidTransactionTimeout =>
      error_class "InvalidTransactionTimeout" BrokerResponseError 50 "INVALID_TRANSACTION_TIMEOUT"
  | ConcurrentTransactions =>
      error_class "ConcurrentTransactions" BrokerResponseError 51 "CONCURRENT_TRANSACTIONS"
  | TransactionCoordinatorFenced =>
      error_class "TransactionCoordinatorFenced" BrokerResponseError 52 "TRANSACTION_COORDINATOR_FENCED"
  | TransactionalIdAuthorizationFailed =>
      error_class "TransactionalIdAuthorizationFailed" BrokerResponseError 53 "TRANSACTIONAL_ID_AUTHORIZATION_FAILED"
  | SecurityDisabled =>
      error_class "SecurityDisabled" BrokerResponseError 54 "SECURITY_DISABLED"
  | OperationNotAttempted =>
      error_class "OperationNotAttempted" BrokerResponseError 55 "OPERATION_NOT_ATTEMPTED"
  | KafkaStorageError =>
      error_class "KafkaStorageError" RetriableBrokerResponseError 56 "KAFKA_STORAGE_ERROR"
  | LogDirNotFound =>
      error_class "LogDirNotFound" BrokerResponseError 57 "LOG_DIR_NOT_FOUND"
  | SaslAuthenticationFailed =>
      error_class "SaslAuthenticationFailed" BrokerResponseError 58 "SASL_AUTHENTICATION_FAILED"
  | UnknownProducerId =>
      error_class "UnknownProducerId" BrokerResponseError 59 "UNKNOWN_PRODUCER_ID"
  | ReassignmentInProgress =>
      error_class "ReassignmentInProgress" BrokerResponseError 60 "REASSIGNMENT_IN_PROGRESS"
  | DelegationTokenAuthDisabled =>
      error_class "DelegationTokenAuthDisabled" BrokerResponseError 61 "DELEGATION_TOKEN_AUTH_DISABLED"
  | DelegationTokenNotFound =>
      error_class "DelegationTokenNotFound" BrokerResponseError 62 "DELEGATION_TOKEN_NOT_FOUND"
  | DelegationTokenOwnerMismatch =>
      error_class "DelegationTokenOwnerMismatch" BrokerResponseError 63 "DELEGATION_TOKEN_OWNER_MISMATCH"
  | DelegationTokenRequestNotAllowed =>
      error_class "DelegationTokenRequestNotAllowed" BrokerResponseError 64 "DELEGATION_TOKEN_REQUEST_NOT_ALLOWED"
  | DelegationTokenAuthorizationFailed =>
      error_class "DelegationTokenAuthorizationFailed" BrokerResponseError 65 "DELEGATION_TOKEN_AUTHORIZATION_FAILED"
  | DelegationTokenExpired =>
      error_class "DelegationTokenExpired" BrokerResponseError 66 "DELEGATION_TOKEN_EXPIRED"
  | InvalidPrincipalType =>
      error_class "InvalidPrincipalType" BrokerResponseError 67 "INVALID_PRINCIPAL_TYPE"
  | NonEmptyGroup =>
      error_class "NonEmptyGroup" BrokerResponseError 68 "NON_EMPTY_GROUP"
  | GroupIdNotFound =>
      error_class "GroupIdNotFound" BrokerResponseError 69 "GROUP_ID_NOT_FOUND"
  | FetchSessionIdNotFound =>
      error_class "FetchSessionIdNotFound" RetriableBrokerResponseError 70 "FETCH_SESSION_ID_NOT_FOUND"
  | InvalidFetchSessionEpoch =>
      error_class "InvalidFetchSessionEpoch" RetriableBrokerResponseError 71 "INVALID_FETCH_SESSION_EPOCH"
  | ListenerNotFound =>
      error_class "ListenerNotFound" RetriableBrokerResponseError 72 "LISTENER_NOT_FOUND"
  end.

(** ** The module namespace

    The names the module binds to the classes of the hierarchy, in source
    order: a [class] statement binds its own name, an assignment binds a
    further name to a class that already exists. *)

Definition module_bindings : list (string * pyclass) :=
  [
   ("BrokerResponseError", BrokerResponseError);
   ("RetriableBrokerResponseError", RetriableBrokerResponseError);
   ("UnknownError", UnknownError);
   ("OffsetOutOfRangeError", OffsetOutOfRangeError);
   ("CorruptMessage", CorruptMessage);
   ("InvalidMessageError", CorruptMessage);
   ("UnknownTopicOrPartitionError", UnknownTopicOrPartitionError);
   ("InvalidFetchRequestError", InvalidFetchRequestError);
   ("LeaderNotAvailableError", LeaderNotAvailableError);
   ("NotLeaderForPartitionError", NotLeaderForPartitionError);
   ("RequestTimedOutError", RequestTimedOutError);
   ("BrokerNotAvailableError", BrokerNotAvailableError);
   ("ReplicaNotAvailableError", ReplicaNotAvailableError);
   ("MessageSizeTooLargeError", MessageSizeTooLargeError);
   ("StaleControllerEpochError", StaleControllerEpochError);
   ("OffsetMetadataTooLargeError", OffsetMetadataTooLargeError);
   ("NetworkException", NetworkException);
   ("StaleLeaderEpochCodeError", NetworkException);
   ("CoordinatorLoadInProgress", CoordinatorLoadInProgress);
   ("OffsetsLoadInProgressError", CoordinatorLoadInProgress);
   ("CoordinatorNotAvailable", CoordinatorNotAvailable);
   ("ConsumerCoordinatorNotAvailableError", CoordinatorNotAvailable);
   ("NotCoordinator", NotCoordinator);
   ("NotCoordinatorForConsumerError", NotCoordinator);
   ("InvalidTopic", InvalidTopic);
   ("RecordListTooLarge", RecordListTooLarge);
   ("NotEnoughReplicas", NotEnoughReplicas);
   ("NotEnoughReplicasAfterAppend", NotEnoughReplicasAfterAppend);
   ("InvalidRequiredAcks", InvalidRequiredAcks);
   ("IllegalGeneration", IllegalGeneration);
   ("InconsistentGroupProtocol", InconsistentGroupProtocol);
   ("InvalidGroupId", InvalidGroupId);
   ("UnknownMemberId", UnknownMemberId);
   ("InvalidSessionTimeout", InvalidSessionTimeout);
   ("RebalanceInProgress", RebalanceInProgress);
   ("InvalidCommitOffsetSize", InvalidCommitOffsetSize);
   ("TopicAuthorizationFailed", TopicAuthorizationFailed);
   ("GroupAuthorizationFailed", GroupAuthorizationFailed);
   ("ClusterAuthorizationFailed", ClusterAuthorizationFailed);
   ("InvalidTimestamp", InvalidTimestamp);
   ("UnsupportedSaslMechanism", UnsupportedSaslMechanism);
   ("IllegalSaslState", IllegalSaslState);
   ("UnsupportedVersion", UnsupportedVersion);
   ("TopicAlreadyExists", TopicAlreadyExists);
   ("InvalidPartitions", InvalidPartitions);
   ("InvalidReplicationFactor", InvalidReplicationFactor);
   ("InvalidReplicaAssignment", InvalidReplicaAssignment);
   ("InvalidConfig", InvalidConfig);
   ("NotController", NotController);
   ("InvalidRequest", InvalidRequest);
   ("UnsupportedForMessageFormat", UnsupportedForMessageFormat);
   ("PolicyViolation", PolicyViolation);
   ("OutOfOrderSequenceNumber", OutOfOrderSequenceNumber);
   ("DuplicateSequenceNumber", DuplicateSequenceNumber);
   ("InvalidProducerEpoch", InvalidProducerEpoch);
   ("InvalidTxnState", InvalidTxnState);
   ("InvalidProducerIdMapping", InvalidProducerIdMapping);
   ("InvalidTransactionTimeout", InvalidTransactionTimeout);
   ("ConcurrentTransactions", ConcurrentTransactions);
   ("TransactionCoordinatorFenced", TransactionCoordinatorFenced);
   ("TransactionalIdAuthorizationFailed", TransactionalIdAuthorizationFailed);
   ("SecurityDisabled", SecurityDisabled);
   ("OperationNotAttempted", OperationNotAttempted);
   ("KafkaStorageError", KafkaStorageError);
   ("LogDirNotFound", LogDirNotFound);
   ("SaslAuthenticationFailed", SaslAuthenticationFailed);
   ("UnknownProducerId", UnknownProducerId);
   ("ReassignmentInProgress", ReassignmentInProgress);
   ("DelegationTokenAuthDisabled", DelegationTokenAuthDisabled);
   ("DelegationTokenNotFound", DelegationTokenNotFound);
   ("DelegationTokenOwnerMismatch", DelegationTokenOwnerMismatch);
   ("DelegationTokenRequestNotAllowed", DelegationTokenRequestNotAllowed);
   ("DelegationTokenAuthorizationFailed", DelegationTokenAuthorizationFailed);
   ("DelegationTokenExpired", DelegationTokenExpired);
   ("InvalidPrincipalType", InvalidPrincipalType);
   ("NonEmptyGroup", NonEmptyGroup);
   ("GroupIdNotFound", GroupIdNotFound);
   ("FetchSessionIdNotFound", FetchSessionIdNotFound);
   ("InvalidFetchSessionEpoch", InvalidFetchSessionEpoch);
   ("ListenerNotFound", ListenerNotFound)].

(** ** The registry literal [BrokerResponseError.errnos] *)

Definition errnos_display : list (Z * pyclass) :=
  [
   ((-1), UnknownError);
   (1, OffsetOutOfRangeError);
   (2, CorruptMessage);
   (3, UnknownTopicOrPartitionError);
   (4, InvalidFetchRequestError);
   (5, LeaderNotAvailableError);
   (6, NotLeaderForPartitionError);
   (7, RequestTimedOutError);
   (8, BrokerNotAvailableError);
   (9, ReplicaNotAvailableError);
   (10, MessageSizeTooLargeError);
   (11, StaleControllerEpochError);
   (12, OffsetMetadataTooLargeError);
   (13, NetworkException);
   (14, CoordinatorLoadInProgress);
   (15, CoordinatorNotAvailable);
   (16, NotCoordinator);
   (17, InvalidTopic);
   (18, RecordListTooLarge);
   (19, NotEnoughReplicas);
   (20, NotEnoughReplicasAfterAppend);
   (21, InvalidRequiredAcks);
   (22, IllegalGeneration);
   (23, InconsistentGroupProtocol);
   (24, InvalidGroupId);
   (25, UnknownMemberId);
   (26, InvalidSessionTimeout);
   (27, RebalanceInProgress);
   (28, InvalidCommitOffsetSize);
   (29, TopicAuthorizationFailed);
   (30, GroupAuthorizationFailed);
   (31, ClusterAuthorizationFailed);
   (32, InvalidTimestamp);
   (33, UnsupportedSaslMechanism);
   (34, IllegalSaslState);
   (35, UnsupportedVersion);
   (36, TopicAlreadyExists);
   (37, InvalidPartitions);
   (38, InvalidReplicationFactor);
   (39, InvalidReplicaAssignment);
   (40, InvalidConfig);
   (41, NotController);
   (42, InvalidRequest);
   (43, UnsupportedForMessageFormat);
   (44, PolicyViolation);
   (45, OutOfOrderSequenceNumber);
   (46, DuplicateSequenceNumber);
   (47, InvalidProducerEpoch);
   (48, InvalidTxnState);
   (49, InvalidProducerIdMapping);
   (50, InvalidTransactionTimeout);
   (51, ConcurrentTransactions);
   (52, TransactionCoordinatorFenced);
   (53, TransactionalIdAuthorizationFailed);
   (54, SecurityDisabled);
   (55, OperationNotAttempted);
   (56, KafkaStorageError);
   (57, LogDirNotFound);
   (58, SaslAuthenticationFailed);
   (59, UnknownProducerId);
   (60, ReassignmentInProgress);
   (61, DelegationTokenAuthDisabled);
   (62, DelegationTokenNotFound);
   (63, DelegationTokenOwnerMismatch);
   (64, DelegationTokenRequestNotAllowed);
   (65, DelegationTokenAuthorizationFailed);
   (66, DelegationTokenExpired);
   (67, InvalidPrincipalType);
   (68, NonEmptyGroup);
   (69, GroupIdNotFound);
   (70, FetchSessionIdNotFound);
   (71, InvalidFetchSessionEpoch);
   (72, ListenerNotFound)].

(** ** Value objects

    The namedtuples that can reach the classifier.  Each lives in a module of
    its own so that the fields keep their source names. *)

Module Message.
Record t : Type := mk {
  magic : Z; attributes : Z; key : option string; value : option string
}.
End Message.

Module OffsetAndMessage.
Record t : Type := mk { offset : Z; message : Message.t }.
End OffsetAndMessage.

Module ProduceResponse.
Record t : Type := mk { topic : string; partition : Z; error : Z; offset : Z }.
End ProduceResponse.

Module FetchResponse.
Record t : Type := mk {
  topic : string; partition : Z; error : Z; highwaterMark : Z;
  messages : list OffsetAndMessage.t
}.
End FetchResponse.

Module OffsetResponse.
Record t : Type := mk {
  topic : string; partition : Z; error : Z; offsets : list Z
}.
End OffsetResponse.

Module OffsetCommitResponse.
Record t : Type := mk { topic : string; partition : Z; error : Z }.
End OffsetCommitResponse.

Module OffsetFetchResponse.
Record t : Type := mk {
  topic : string; partition : Z; offset : Z; metadata : string; error : Z
}.
End OffsetFetchResponse.

Module ConsumerMetadataResponse.
Record t : Type := mk { error : Z; node_id : Z; host : string; port : Z }.
End ConsumerMetadataResponse.

Module PartitionMetadata.
Record t : Type := mk {
  topic : string; partition : Z; partition_error_code : Z; leader : Z;
  replicas : list Z; isr : list Z
}.
End PartitionMetadata.

Module TopicMetadata.
Record t : Type := mk {
  topic : string; topic_error_code : Z;
  partition_metadata : list PartitionMetadata.t
}.
End TopicMetadata.

(** The Python values [_check_error] is applied to: an [int] (unbounded),
    one of the response tuples, or one of the metadata tuples (which carry
    their code in [topic_error_code] / [partition_error_code] and have no
    [error] field). *)
Inductive pyobj : Type :=
  | PyInt (n : Z)
  | PyProduceResponse (r : ProduceResponse.t)
  | PyFetchResponse (r : FetchResponse.t)
  | PyOffsetResponse (r : OffsetResponse.t)
  | PyOffsetCommitResponse (r : OffsetCommitResponse.t)
  | PyOffsetFetchResponse (r : OffsetFetchResponse.t)
  | PyConsumerMetadataResponse (r : ConsumerMetadataResponse.t)
  | PyTopicMetadata (r : TopicMetadata.t)
  | PyPartitionMetadata (r : PartitionMetadata.t).

(** [isinstance(o, int)] *)
Definition isinstance_int (o : pyobj) : option Z :=
  match o with PyInt n => Some n | _ => None end.

(** [o.error]; [None] is the [AttributeError] of an object without that
    attribute. *)
Definition getattr_error (o : pyobj) : option Z :=
  match o with
  | PyInt _ => None
  | PyProduceResponse r => Some (ProduceResponse.error r)
  | PyFetchResponse r => Some (FetchResponse.error r)
  | PyOffsetResponse r => Some (OffsetResponse.error r)
  | PyOffsetCommitResponse r => Some (OffsetCommitResponse.error r)
  | PyOffsetFetchResponse r => Some (OffsetFetchResponse.error r)
  | PyConsumerMetadataResponse r => Some (ConsumerMetadataResponse.error r)
  | PyTopicMetadata _ => None
  | PyPartitionMetadata _ => None
  end.

(** ** Attribute resolution *)

(** The method resolution order of a class: the class, then its bases.  The
    hierarchy is three classes deep at most ([mro_reaches_root] below). *)
Fixpoint mro_upto (depth : nat) (c : pyclass) : list pyclass :=
  c :: match depth, cls_base (class_def c) with
       | S d, Some b => mro_upto d b
       | _, _ => []
       end.

Definition mro (c : pyclass) : list pyclass := mro_upto 2 c.

(** Class attribute lookup: the first class of the resolution order whose body
    assigns the attribute. *)
Definition class_getattr {A : Type} (attr : class_stmt -> option A)
  (c : pyclass) : option A :=
  head (omap (fun k => attr (class_def k)) (mro c)).

(** [issubclass(c, b)] *)
Definition issubclass (c b : pyclass) : bool := bool_decide (b ∈ mro c).

(** An exception instance: its class and its own [__dict__], of which only
    [errno] is ever assigned. *)
Record instance : Type := Instance {
  inst_class : pyclass;
  inst_errno : option Z
}.

(** [cls()] *)
Definition new (cls : pyclass) : instance := Instance cls None.

(** [error.errno = errno] *)
Definition setattr_errno (error : instance) (errno : Z) : instance :=
  Instance (inst_class error) (Some errno).

(** [error.errno], [error.message] and [error.retriable]: the instance's own
    attribute first, then the class.  The outer [None] is [AttributeError]. *)
Definition errno_of (error : instance) : option Z :=
  match inst_errno error with
  | Some n => Some n
  | None => class_getattr cls_errno (inst_class error)
  end.

Definition message_of (error : instance) : option (option string) :=
  class_getattr cls_message (inst_class error).

Definition retriable_of (error : instance) : option bool :=
  class_getattr cls_retriable (inst_class error).

(** ** Dictionaries *)

(** A dict display [{k1: v1, k2: v2, ...}] stores its items from left to
    right, so that a repeated key keeps the last value. *)
Definition dict_display {K : Type} `{Countable K} {V : Type}
  (items : list (K * V)) : gmap K V :=
  foldl (fun d kv => <[kv.1 := kv.2]> d) ∅ items.

(** ** Program state and the evaluation monad

    The only state [_check_error] can reach is the class attribute
    [BrokerResponseError.errnos]. *)
Record world : Type := World { errnos : gmap Z pyclass }.

Inductive exn : Type :=
  | BrokerExn (error : instance)
  | AttributeError (attr : string).

Inductive result (A : Type) : Type :=
  | Return (a : A)
  | Raise (x : exn).
Arguments Return {A} a.
Arguments Raise {A} x.

Definition M (A : Type) : Type := world -> result A * world.

Definition raise {A : Type} (x : exn) : M A := fun w => (Raise x, w).

#[global] Instance M_ret : MRet M := fun A a w => (Return a, w).

#[global] Instance M_bind : MBind M := fun A B k m w =>
  match m w with
  | (Return a, w') => k a w'
  | (Raise x, w') => (Raise x, w')
  end.

(** [BrokerResponseError.errnos.get(k)] *)
Definition errnos_get (k : Z) : M (option pyclass) :=
  fun w => (Return (errnos w !! k), w).

(** [o.error] as a computation. *)
Definition get_error (o : pyobj) : M Z :=
  match getattr_error o with
  | Some n => mret n
  | None => raise (AttributeError "error")
  end.

(** ** The classifier *)

(** [_check_error(responseOrErrcode, raiseException=True)].  The second
    argument is what the call site passes: [None] when it is left out. *)
Definition _check_error (responseOrErrcode : pyobj)
  (raiseException : option bool) : M (option instance) :=
  let raiseException := default true raiseException in
  errno ← match isinstance_int responseOrErrcode with
          | Some n => mret n
          | None => get_error responseOrErrcode
          end;
  if decide (errno = 0) then mret None
  else
    cls ← errnos_get errno;
    let error := match cls with
                 | None => setattr_errno (new BrokerResponseError) errno
                 | Some cls => new cls
                 end in
    if raiseException then raise (BrokerExn error)
    else mret (Some error).

(** The state after the module body has run. *)
Definition world0 : world := World (dict_display errnos_display).

(** ** Derived notions used by the statements *)

(** The codes the protocol table enumerates: success and the registry keys. *)
Definition canonical_codes : list Z := KAFKA_SUCCESS :: errnos_display.*1.

(** The error object [_check_error] builds for a non-zero [errno]. *)
Definition error_for (w : world) (errno : Z) : instance :=
  match errnos w !! errno with
  | None => setattr_errno (new BrokerResponseError) errno
  | Some cls => new cls
  end.

(** How the error leaves [_check_error]. *)
Definition deliver (raiseException : bool) (error : instance)
  : result (option instance) :=
  if raiseException then Raise (BrokerExn error) else Return (Some error).

(** Two errors are value-equal when [errno], [message] and [retriable] read
    the same on both. *)
Definition value_eq (e1 e2 : instance) : Prop :=
  errno_of e1 = errno_of e2 ∧
  message_of e1 = message_of e2 ∧
  retriable_of e1 = retriable_of e2.

Definition outcome_value_eq (r1 r2 : result (option instance)) : Prop :=
  match r1, r2 with
  | Return None, Return None => True
  | Return (Some e1), Return (Some e2) => value_eq e1 e2
  | Raise (BrokerExn e1), Raise (BrokerExn e2) => value_eq e1 e2
  | Raise (AttributeError a1), Raise (AttributeError a2) => a1 = a2
  | _, _ => False
  end.

(** The three results of a classification, and the failure it must not
    have. *)
Definition is_success (r : result (option instance)) : Prop :=
  r = Return None.

Definition is_known_error (w : world) (r : result (option instance)) : Prop :=
  ∃ code cls, errnos w !! code = Some cls ∧
    (r = Return (Some (new cls)) ∨ r = Raise (BrokerExn (new cls))).

Definition is_generic_error (r : result (option instance)) : Prop :=
  ∃ code, r = Return (Some (Instance BrokerResponseError (Some code))) ∨
          r = Raise (BrokerExn (Instance BrokerResponseError (Some code))).

Definition is_internal_failure (r : result (option instance)) : Prop :=
  ∃ attr, r = Raise (AttributeError attr).

(** What holds of every item of the registry literal: the class stores the
    key as its [errno], assigns its own non-[None] [message], and is
    retriable exactly when it derives from [RetriableBrokerResponseError]. *)
Definition entry_ok (kv : Z * pyclass) : Prop :=
  errno_of (new kv.2) = Some kv.1 ∧
  cls_errno (class_def kv.2) = Some kv.1 ∧
  is_Some (cls_message (class_def kv.2) ≫= id) ∧
  message_of (new kv.2) = cls_message (class_def kv.2) ∧
  retriable_of (new kv.2) =
    Some (issubclass kv.2 RetriableBrokerResponseError).

(** The registry codes whose class derives from
    [RetriableBrokerResponseError]. *)
Definition retriable_codes : list Z :=
  (filter (fun kv => issubclass kv.2 RetriableBrokerResponseError = true)
          errnos_display).*1.

(** Names and aliases.  A class keeps the name of its [class] statement; a
    binding under any other name is an alias. *)
Definition module_globals : gmap string pyclass :=
  dict_display module_bindings.

Definition aliases : list (string * pyclass) :=
  filter (fun b => b.1 ≠ cls_name (class_def b.2)) module_bindings.

(** [Name()] evaluated in the module: resolve the name, call the class. *)
Definition instantiate (name : string) : option instance :=
  new <$> module_globals !! name.

(** How many registry entries have their code between [lo] and [hi]. *)
Definition entries_between (lo hi : Z) (w : world) : nat :=
  size (filter (fun kv => lo ≤ kv.1 ≤ hi) (errnos w)).

(** A sequence of calls, each started in the state the previous one left. *)
Fixpoint run_calls (calls : list (pyobj * option bool)) (w : world)
  : list (result (option instance)) * world :=
  match calls with
  | [] => ([], w)
  | (o, mode) :: rest =>
      let '(r, w1) := _check_error o mode w in
      let '(rs, w2) := run_calls rest w1 in
      (r :: rs, w2)
  end.

(** ** The other exception classes of the module

    [KafkaError] and the classes that derive from it outside the broker
    hierarchy; [Broker c] is the class [c] of the broker hierarchy. *)
Inductive kafka_class : Type :=
  | KafkaError
  | ClientError
  | RestartError
  | RestopError
  | DuplicateRequestError
  | Broker (c : pyclass)
  | KafkaUnavailableError
  | LeaderUnavailableError
  | PartitionUnavailableError
  | FailedPayloadsError
  | ConnectionError
  | BufferUnderflowError
  | ChecksumError
  | ConsumerFetchSizeTooSmall
  | ProtocolError
  | UnsupportedCodecError
  | CancelledError
  | InvalidConsumerGroupError
  | NoResponseError
  | OperationInProgress.

#[global] Instance kafka_class_eq_dec : EqDecision kafka_class.
Proof. solve_decision. Defined.

(** The base named in the [class] statement; [None] for [KafkaError], whose
    base is the builtin [Exception]. *)
Definition kafka_base (k : kafka_class) : option kafka_class :=
  match k with
  | KafkaError => None
  | RestartError | RestopError => Some ClientError
  | Broker c =>
      Some (match cls_base (class_def c) with
            | Some b => Broker b
            | None => KafkaError
            end)
  | _ => Some KafkaError
  end.

Fixpoint kafka_mro_upto (depth : nat) (k : kafka_class) : list kafka_class :=
  k :: match depth, kafka_base k with
       | S d, Some b => kafka_mro_upto d b
       | _, _ => []
       end.

(** Four classes deep at most: a retriable error, its two bases and
    [KafkaError]. *)
Definition kafka_mro (k : kafka_class) : list kafka_class :=
  kafka_mro_upto 3 k.

(** Whether [except handler:] catches the exception: the class of the raised
    object derives from [handler].  The builtin [AttributeError] derives from
    no class of the module. *)
Definition caught_by (x : exn) (handler : kafka_class) : bool :=
  match x with
  | BrokerExn error => bool_decide (handler ∈ kafka_mro (Broker (inst_class error)))
  | AttributeError _ => false
  end.

(** ** The struct declarations

    What [namedtuple(typename, field_names)] is called with. *)
Record namedtuple_type : Type := NamedTuple {
  typename : string;
  _fields : list string
}.

#[global] Instance namedtuple_type_eq_dec : EqDecision namedtuple_type.
Proof. solve_decision. Defined.

Module Structs.
Definition ProduceResponse : namedtuple_type :=
  NamedTuple "ProduceResponse" ["topic"; "partition"; "error"; "offset"].
Definition FetchResponse : namedtuple_type :=
  NamedTuple "FetchResponse"
             ["topic"; "partition"; "error"; "highwaterMark"; "messages"].
Definition OffsetResponse : namedtuple_type :=
  NamedTuple "OffsetResponse" ["topic"; "partition"; "error"; "offsets"].
Definition OffsetCommitResponse : namedtuple_type :=
  NamedTuple "OffsetCommitResponse" ["topic"; "partition"; "error"].
Definition OffsetFetchResponse : namedtuple_type :=
  NamedTuple "OffsetFetchResponse"
             ["topic"; "partition"; "offset"; "metadata"; "error"].
Definition ConsumerMetadataResponse : namedtuple_type :=
  NamedTuple "ConsumerMetadataResponse" ["error"; "node_id"; "host"; "port"].
Definition TopicMetadata : namedtuple_type :=
  NamedTuple "TopicMetadata" ["topic"; "topic_error_code"; "partition_metadata"].
Definition PartitionMetadata : namedtuple_type :=
  NamedTuple "PartitionMetadata"
             ["topic"; "partition"; "partition_error_code"; "leader";
              "replicas"; "isr"].
Definition OffsetAndMessage : namedtuple_type :=
  NamedTuple "OffsetAndMessage" ["offset"; "message"].
Definition Message : namedtuple_type :=
  NamedTuple "Message" ["magic"; "attributes"; "key"; "value"].

End Structs.


(** ** Dictionaries built by a display *)

Section dict_display.
Context {K : Type} `{Countable K} {V : Type}.
Implicit Types (items : list (K * V)) (d : gmap K V).

Let store d items : gmap K V :=
  foldl (fun d kv => <[kv.1 := kv.2]> d) d items.

Lemma store_lookup_notin items d k :
  k ∉ items.*1 → store d items !! k = d !! k.
Proof.
  revert d. induction items as [|[k' v'] items IH]; intros d Hk; [done|].
  cbn in Hk. apply not_elem_of_cons in Hk as [Hne Hk].
  cbn. fold (store (<[k':=v']> d) items). rewrite IH by done.
  by rewrite lookup_insert_ne.
Qed.

Lemma store_lookup_in items d k v :
  NoDup items.*1 → (k, v) ∈ items → store d items !! k = Some v.
Proof.
  revert d. induction items as [|[k' v'] items IH]; intros d Hnd Hin.
  { by apply elem_of_nil in Hin. }
  cbn in Hnd. apply NoDup_cons in Hnd as [Hfresh Hnd].
  cbn. fold (store (<[k':=v']> d) items).
  apply elem_of_cons in Hin as [Heq|Hin].
  - inversion Heq; subst k' v'.
    rewrite store_lookup_notin by done. apply lookup_insert_eq.
  - by apply IH.
Qed.

Lemma dict_display_None items k :
  k ∉ items.*1 → dict_display items !! k = None.
Proof. intros Hk. unfold dict_display. by rewrite (store_lookup_notin items ∅ k Hk). Qed.

Lemma dict_display_Some items k v :
  NoDup items.*1 → (k, v) ∈ items → dict_display items !! k = Some v.
Proof. intros Hnd Hin. exact (store_lookup_in items ∅ k v Hnd Hin). Qed.

Lemma dict_display_inv items k v :
  NoDup items.*1 → dict_display items !! k = Some v → (k, v) ∈ items.
Proof.
  intros Hnd Hk.
  destruct (decide (k ∈ items.*1)) as [Hin|Hout].
  - apply list_elem_of_fmap in Hin as [[k' v'] [Heq Hin]].
    simpl in Heq; subst k'.
    rewrite (dict_display_Some _ _ _ Hnd Hin) in Hk. by inversion Hk; subst.
  - by rewrite dict_display_None in Hk.
Qed.

End dict_display.

(** ** The class hierarchy *)

Lemma mro_reaches_root (c : pyclass) : last (mro c) = Some BrokerResponseError.
Proof. by destruct c. Qed.

Lemma message_of_defined (e : instance) : is_Some (message_of e).
Proof. destruct e as [c d]. by destruct c; eexists. Qed.

Lemma retriable_of_defined (e : instance) : is_Some (retriable_of e).
Proof. destruct e as [c d]. by destruct c; eexists. Qed.

Lemma value_eq_refl (e : instance) : value_eq e e.
Proof. by repeat split. Qed.

Lemma outcome_value_eq_refl (r : result (option instance)) :
  outcome_value_eq r r.
Proof. destruct r as [[e|]|[e|a]]; simpl; auto using value_eq_refl. Qed.

(** ** The registry *)

Lemma errnos_display_keys : errnos_display.*1 = (-1) :: seqZ 1 72.
Proof. reflexivity. Qed.

Lemma errnos_display_NoDup : NoDup errnos_display.*1.
Proof. apply (bool_decide_unpack _). by vm_compute. Qed.

Lemma elem_of_errnos_keys (k : Z) :
  k ∈ errnos_display.*1 ↔ k = -1 ∨ 1 ≤ k ≤ 72.
Proof.
  rewrite errnos_display_keys, elem_of_cons, elem_of_seqZ. lia.
Qed.

Lemma elem_of_canonical_codes (k : Z) : k ∈ canonical_codes ↔ -1 ≤ k ≤ 72.
Proof.
  unfold canonical_codes, KAFKA_SUCCESS.
  rewrite elem_of_cons, elem_of_errnos_keys. lia.
Qed.

Lemma errnos_lookup_Some (k : Z) (cls : pyclass) :
  errnos world0 !! k = Some cls ↔ (k, cls) ∈ errnos_display.
Proof.
  split.
  - apply dict_display_inv, errnos_display_NoDup.
  - apply dict_display_Some, errnos_display_NoDup.
Qed.

Lemma errnos_lookup_None (k : Z) :
  errnos world0 !! k = None ↔ k < -1 ∨ k = 0 ∨ 72 < k.
Proof.
  split.
  - intros Hk. destruct (decide (k ∈ errnos_display.*1)) as [Hin|Hout].
    + apply list_elem_of_fmap in Hin as [[k' cls] [Heq Hin]].
      simpl in Heq; subst k'. apply errnos_lookup_Some in Hin. congruence.
    + rewrite elem_of_errnos_keys in Hout. lia.
  - intros Hk. apply dict_display_None. rewrite elem_of_errnos_keys. lia.
Qed.

Lemma errnos_lookup_is_Some (k : Z) :
  is_Some (errnos world0 !! k) ↔ k = -1 ∨ 1 ≤ k ≤ 72.
Proof.
  rewrite <- not_eq_None_Some, errnos_lookup_None. lia.
Qed.

Lemma errnos_display_entries : Forall entry_ok errnos_display.
Proof.
  unfold errnos_display.
  repeat (apply Forall_cons; split; [by repeat split; eexists|]).
  apply Forall_nil_2.
Qed.

Lemma errnos_entry (k : Z) (cls : pyclass) :
  errnos world0 !! k = Some cls → entry_ok (k, cls).
Proof.
  intros Hk. apply errnos_lookup_Some in Hk.
  exact (proj1 (Forall_forall _ _) errnos_display_entries _ Hk).
Qed.

(** In the initial state the error built for a non-zero code reads that code
    back. *)
Lemma error_for_errno (code : Z) :
  errno_of (error_for world0 code) = Some code.
Proof.
  unfold error_for. destruct (errnos world0 !! code) as [cls|] eqn:Hk; [|done].
  by destruct (errnos_entry _ _ Hk) as [? _].
Qed.

(** ** The classifier, equationally *)

Lemma check_error_int (code : Z) (mode : option bool) (w : world) :
  _check_error (PyInt code) mode w =
  if decide (code = 0) then (Return None, w)
  else (deliver (default true mode) (error_for w code), w).
Proof.
  unfold _check_error, error_for, deliver. cbn.
  unfold mbind, M_bind, mret, M_ret, errnos_get, raise. cbn.
  destruct (decide (code = 0)); [done|].
  by destruct (default true mode).
Qed.

Lemma check_error_zero (mode : option bool) (w : world) :
  _check_error (PyInt 0) mode w = (Return None, w).
Proof. by rewrite check_error_int. Qed.

Lemma check_error_nonzero (code : Z) (mode : option bool) (w : world) :
  code ≠ 0 →
  _check_error (PyInt code) mode w =
  (deliver (default true mode) (error_for w code), w).
Proof. intros Hnz. rewrite check_error_int. by destruct (decide (code = 0)). Qed.

Lemma check_error_attr (o : pyobj) (code : Z) (mode : option bool) (w : world) :
  getattr_error o = Some code →
  _check_error o mode w = _check_error (PyInt code) mode w.
Proof.
  intros Herr. rewrite check_error_int.
  destruct o; try discriminate Herr; injection Herr as <-;
    unfold _check_error, get_error, error_for, deliver; cbn;
    unfold mbind, M_bind, mret, M_ret, errnos_get, raise; cbn;
    (destruct (decide (_ = 0)); [done|]); by destruct (default true mode).
Qed.

Lemma check_error_no_attr (o : pyobj) (mode : option bool) (w : world) :
  isinstance_int o = None → getattr_error o = None →
  _check_error o mode w = (Raise (AttributeError "error"), w).
Proof.
  intros Hint Herr. unfold _check_error, get_error. by rewrite Hint, Herr.
Qed.

Lemma check_error_state (o : pyobj) (mode : option bool) (w : world) :
  (_check_error o mode w).2 = w.
Proof.
  destruct (isinstance_int o) as [n|] eqn:Hint.
  - destruct o; try discriminate Hint. rewrite check_error_int.
    by destruct (decide _).
  - destruct (getattr_error o) as [code|] eqn:Herr.
    + rewrite (check_error_attr _ _ _ _ Herr), check_error_int.
      by destruct (decide _).
    + by rewrite check_error_no_attr.
Qed.

Lemma run_calls_pure (calls : list (pyobj * option bool)) (w : world) :
  run_calls calls w = ((fun c => (_check_error c.1 c.2 w).1) <$> calls, w).
Proof.
  induction calls as [|[o mode] calls IH]; [done|].
  cbn. pose proof (check_error_state o mode w) as Hst.
  destruct (_check_error o mode w) as [r w1]. simpl in Hst; subst w1.
  by rewrite IH.
Qed.

Lemma retriable_codes_list :
  retriable_codes = [2; 3; 5; 6; 7; 13; 14; 15; 16; 19; 20; 41; 56; 70; 71; 72].
Proof. reflexivity. Qed.

Lemma errnos_display_retriable :
  Forall (fun kv => issubclass kv.2 RetriableBrokerResponseError =
                    bool_decide (kv.1 ∈ retriable_codes)) errnos_display.
Proof. apply (bool_decide_unpack _). by vm_compute. Qed.

Lemma errnos_retriable (k : Z) (cls : pyclass) :
  errnos world0 !! k = Some cls →
  issubclass cls RetriableBrokerResponseError = bool_decide (k ∈ retriable_codes).
Proof.
  intros Hk. apply errnos_lookup_Some in Hk.
  exact (proj1 (Forall_forall _ _) errnos_display_retriable _ Hk).
Qed.

(** ** Properties of the classifier *)

(** Closes a goal [¬ is_known_error _ r] or [¬ is_generic_error r] when [r]
    has another shape. *)
Ltac refute_shape :=
  first [ intros (? & ? & _ & [?|?]); discriminate
        | intros (? & [?|?]); discriminate ].

(** C1: for every code of the canonical table {0, -1, 1..72}, [_check_error]
    in return mode returns [None] (success) exactly when the code is 0; for a
    non-zero code it returns a fresh instance of the class the registry holds
    for that code (the same instance is what signal mode raises), whose
    [errno] is the code, whose [message] is the string the class assigns,
    and whose [retriable] flag is that of the class (true exactly for the
    sixteen retriable codes).  Code 3 gives UNKNOWN_TOPIC_OR_PARTITION,
    retriable; code 18 gives RECORD_LIST_TOO_LARGE, not retriable. *)
Theorem check_error_canonical_table (code : Z) (Hin : code ∈ canonical_codes) :
  (_check_error (PyInt code) (Some false) world0 = (Return None, world0)
   ↔ code = 0) ∧
  (code ≠ 0 → ∃ cls name,
     errnos world0 !! code = Some cls ∧
     _check_error (PyInt code) (Some false) world0
       = (Return (Some (new cls)), world0) ∧
     (∀ mode, _check_error (PyInt code) mode world0
              = (deliver (default true mode) (new cls), world0)) ∧
     errno_of (new cls) = Some code ∧
     cls_message (class_def cls) = Some (Some name) ∧
     message_of (new cls) = Some (Some name) ∧
     retriable_of (new cls) = Some (issubclass cls RetriableBrokerResponseError) ∧
     issubclass cls RetriableBrokerResponseError
       = bool_decide (code ∈ [2; 3; 5; 6; 7; 13; 14; 15; 16; 19; 20; 41; 56;
                              70; 71; 72])) ∧
  (∃ e3, _check_error (PyInt 3) (Some false) world0 = (Return (Some e3), world0) ∧
         errno_of e3 = Some 3 ∧
         message_of e3 = Some (Some "UNKNOWN_TOPIC_OR_PARTITION") ∧
         retriable_of e3 = Some true) ∧
  (∃ e18, _check_error (PyInt 18) (Some false) world0 = (Return (Some e18), world0) ∧
          errno_of e18 = Some 18 ∧
          message_of e18 = Some (Some "RECORD_LIST_TOO_LARGE") ∧
          retriable_of e18 = Some false).
Proof.
  apply elem_of_canonical_codes in Hin.
  split; [|split; [|split]].
  - rewrite check_error_int. destruct (decide (code = 0)); [done|].
    split; [discriminate|done].
  - intros Hnz.
    assert (is_Some (errnos world0 !! code)) as [cls Hcls].
    { apply errnos_lookup_is_Some. lia. }
    destruct (errnos_entry _ _ Hcls) as (Herrno & _ & [name Hname] & Hmsg & Hretr).
    simpl in Herrno, Hname, Hmsg, Hretr.
    destruct (cls_message (class_def cls)) as [[name'|]|] eqn:Hown;
      try discriminate Hname. injection Hname as ->.
    assert (∀ mode, _check_error (PyInt code) mode world0
              = (deliver (default true mode) (new cls), world0)) as Hrun.
    { intros mode. rewrite check_error_nonzero by done.
      unfold error_for. by rewrite Hcls. }
    exists cls, name.
    repeat split; try done; try exact (Hrun (Some false)).
    rewrite <- retriable_codes_list. by apply errnos_retriable.
  - exists (new UnknownTopicOrPartitionError). by vm_compute.
  - exists (new RecordListTooLarge). by vm_compute.
Qed.

Lemma check_error_canonical_table_witness :
  3 ∈ canonical_codes ∧
  ∃ cls name,
     errnos world0 !! 3 = Some cls ∧
     _check_error (PyInt 3) (Some false) world0
       = (Return (Some (new cls)), world0) ∧
     (∀ mode, _check_error (PyInt 3) mode world0
              = (deliver (default true mode) (new cls), world0)) ∧
     errno_of (new cls) = Some 3 ∧
     cls_message (class_def cls) = Some (Some name) ∧
     message_of (new cls) = Some (Some name) ∧
     retriable_of (new cls) = Some (issubclass cls RetriableBrokerResponseError) ∧
     issubclass cls RetriableBrokerResponseError
       = bool_decide (3 ∈ [2; 3; 5; 6; 7; 13; 14; 15; 16; 19; 20; 41; 56;
                           70; 71; 72]).
Proof.
  assert (3 ∈ canonical_codes) as Hin by (apply (bool_decide_unpack _); by vm_compute).
  split; [exact Hin|].
  apply (proj1 (proj2 (check_error_canonical_table 3 Hin))). lia.
Defined.

(** C2: for every integer outside the canonical table (the codes below -1
    and the codes above 72; together with 0, which is success, these are the
    integers without a registry entry) [_check_error] builds a plain
    [BrokerResponseError] whose [errno] is the input, whose [message] is
    [None] and whose [retriable] flag is false: returned in return mode,
    raised in signal mode, and in no mode replaced by an
    [AttributeError]. *)
Theorem check_error_unknown_code (code : Z) (Hout : code ∉ canonical_codes) :
  (code < -1 ∨ 72 < code) ∧
  (∀ k, k < -1 ∨ 72 < k → k ∉ canonical_codes) ∧
  (∀ k, errnos world0 !! k = None ↔ k = 0 ∨ k ∉ canonical_codes) ∧
  errnos world0 !! code = None ∧
  ∃ error,
    _check_error (PyInt code) (Some false) world0
      = (Return (Some error), world0) ∧
    (∀ mode, _check_error (PyInt code) mode world0
             = (deliver (default true mode) error, world0)) ∧
    inst_class error = BrokerResponseError ∧
    errno_of error = Some code ∧
    message_of error = Some None ∧
    retriable_of error = Some false ∧
    ∀ mode, ¬ is_internal_failure (_check_error (PyInt code) mode world0).1.
Proof.
  rewrite elem_of_canonical_codes in Hout.
  assert (errnos world0 !! code = None) as Hnone.
  { apply errnos_lookup_None. lia. }
  assert (∀ mode, _check_error (PyInt code) mode world0
            = (deliver (default true mode)
                 (setattr_errno (new BrokerResponseError) code), world0)) as Hrun.
  { intros mode. rewrite check_error_nonzero by lia.
    unfold error_for. by rewrite Hnone. }
  split; [lia|]. split.
  { intros k Hk. rewrite elem_of_canonical_codes. lia. }
  split.
  { intros k. rewrite errnos_lookup_None, elem_of_canonical_codes. lia. }
  split; [done|].
  exists (setattr_errno (new BrokerResponseError) code).
  split; [exact (Hrun (Some false))|]. split; [exact Hrun|].
  repeat split.
  intros mode [attr Hfail]. rewrite Hrun in Hfail.
  simpl in Hfail. by destruct (default true mode).
Qed.

Lemma check_error_unknown_code_witness :
  (9999 ∉ canonical_codes) ∧
  ∃ error,
    _check_error (PyInt 9999) (Some false) world0
      = (Return (Some error), world0) ∧
    errno_of error = Some 9999 ∧
    message_of error = Some None ∧
    retriable_of error = Some false.
Proof.
  assert (9999 ∉ canonical_codes) as Hout
    by (apply (bool_decide_unpack _); by vm_compute).
  split; [exact Hout|].
  destruct (check_error_unknown_code 9999 Hout)
    as (_ & _ & _ & _ & error & Hret & _ & _ & Herrno & Hmsg & Hretr & _).
  by exists error.
Defined.

(** C3: on every integer, in every mode, [_check_error] ends in exactly one
    of three ways: success ([None] returned), an instance of a registered
    class, or a plain [BrokerResponseError] carrying the code; it never
    fails with an [AttributeError], and it ends in success exactly on 0. *)
Theorem check_error_total (code : Z) (mode : option bool) :
  ∃ r, _check_error (PyInt code) mode world0 = (r, world0) ∧
    ¬ is_internal_failure r ∧
    (is_success r ↔ code = 0) ∧
    ((is_success r ∧ ¬ is_known_error world0 r ∧ ¬ is_generic_error r) ∨
     (¬ is_success r ∧ is_known_error world0 r ∧ ¬ is_generic_error r) ∨
     (¬ is_success r ∧ ¬ is_known_error world0 r ∧ is_generic_error r)).
Proof.
  rewrite check_error_int. destruct (decide (code = 0)) as [Hz|Hnz].
  { exists (Return None). split; [done|]. split; [by intros [attr Hf]|].
    split; [done|]. left. repeat split; [refute_shape..]. }
  eexists. split; [done|]. unfold error_for, deliver.
  destruct (errnos world0 !! code) as [cls|] eqn:Hk;
    destruct (default true mode);
    (split; [by intros [attr Hf]|]);
    (split; [split; [discriminate|done]|]).
  1,2: right; left; repeat split;
         [discriminate | exists code, cls; auto | refute_shape].
  all: right; right; repeat split;
         [discriminate | refute_shape | exists code; auto].
Qed.

(** The failure C3 excludes is one the classifier does have on other
    arguments: a metadata tuple has no [error] attribute. *)
Example check_error_topic_metadata :
  _check_error (PyTopicMetadata (TopicMetadata.mk "t" 3 [])) None world0
  = (Raise (AttributeError "error"), world0).
Proof. reflexivity. Qed.

(** C4: an object with an [error] attribute is classified as that attribute
    is: both calls end alike, in every mode and state; when the attribute is
    0 both return [None], never an error object. *)
Theorem check_error_response_shape (r : pyobj) (code : Z) (mode : option bool)
  (w : world) (Herr : getattr_error r = Some code) :
  _check_error r mode w = _check_error (PyInt code) mode w ∧
  (code = 0 →
   _check_error r mode w = (Return None, w) ∧
   _check_error (PyInt 0) mode w = (Return None, w)) ∧
  (code ≠ 0 → (_check_error r mode w).1 ≠ Return None).
Proof.
  rewrite (check_error_attr _ _ _ _ Herr). split; [done|]. split.
  - intros ->. by rewrite check_error_zero.
  - intros Hnz. rewrite check_error_nonzero by done.
    simpl. unfold deliver. by destruct (default true mode).
Qed.

Lemma check_error_response_shape_witness :
  getattr_error (PyProduceResponse (ProduceResponse.mk "topic" 1 0 42)) = Some 0 ∧
  _check_error (PyProduceResponse (ProduceResponse.mk "topic" 1 0 42)) None world0
  = _check_error (PyInt 0) None world0.
Proof.
  split; [reflexivity|].
  exact (proj1 (check_error_response_shape
                  (PyProduceResponse (ProduceResponse.mk "topic" 1 0 42))
                  0 None world0 eq_refl)).
Defined.

(** C5: the two modes agree on every integer.  For a non-zero code, return
    mode returns an error object and signal mode raises one, and the two
    read the same [errno] (the code), [message] and [retriable]; for 0 both
    modes return [None] and raise nothing. *)
Theorem check_error_modes_agree (code : Z) :
  (code ≠ 0 → ∃ returned raised,
     _check_error (PyInt code) (Some false) world0
       = (Return (Some returned), world0) ∧
     _check_error (PyInt code) (Some true) world0
       = (Raise (BrokerExn raised), world0) ∧
     value_eq returned raised ∧
     errno_of returned = Some code ∧
     errno_of raised = Some code ∧
     is_Some (message_of raised) ∧
     is_Some (retriable_of raised)) ∧
  (code = 0 →
     _check_error (PyInt code) (Some false) world0 = (Return None, world0) ∧
     _check_error (PyInt code) (Some true) world0 = (Return None, world0)).
Proof.
  split.
  - intros Hnz. exists (error_for world0 code), (error_for world0 code).
    rewrite !check_error_nonzero by done.
    repeat split; auto using error_for_errno, message_of_defined,
      retriable_of_defined.
  - intros ->. by rewrite !check_error_zero.
Qed.

(** C10: a call that leaves [raiseException] out runs in signal mode: it is
    the call with [raiseException=True], it raises the error that return
    mode would return for every non-zero code, and it returns [None] for
    0. *)
Theorem check_error_default_mode (code : Z) (w : world) :
  _check_error (PyInt code) None w = _check_error (PyInt code) (Some true) w ∧
  (code ≠ 0 → ∃ error,
     _check_error (PyInt code) None w = (Raise (BrokerExn error), w) ∧
     _check_error (PyInt code) (Some false) w = (Return (Some error), w)) ∧
  (code = 0 → _check_error (PyInt code) None w = (Return None, w)).
Proof.
  split; [by rewrite !check_error_int|]. split.
  - intros Hnz. exists (error_for w code). by rewrite !check_error_nonzero.
  - intros ->. apply check_error_zero.
Qed.

(** C8: classification has no effect on the state and is repeatable.  A call
    leaves the state, hence the registry, as it found it; after any sequence
    of earlier calls (on any arguments, known or unknown codes, either mode)
    the state is still the initial one and a call ends exactly as it would
    have ended at the start; two calls in a row on one code and mode end in
    value-equal results. *)
Theorem check_error_idempotent (code : Z) (mode : option bool) (w : world)
  (calls : list (pyobj * option bool)) :
  (_check_error (PyInt code) mode w).2 = w ∧
  (run_calls calls w).2 = w ∧
  errnos (run_calls calls w).2 = errnos w ∧
  _check_error (PyInt code) mode (run_calls calls w).2
    = _check_error (PyInt code) mode w ∧
  ∃ r1 r2,
    run_calls [(PyInt code, mode); (PyInt code, mode)] w = ([r1; r2], w) ∧
    r1 = (_check_error (PyInt code) mode w).1 ∧
    r1 = r2 ∧
    outcome_value_eq r1 r2.
Proof.
  rewrite !run_calls_pure. simpl.
  repeat split; auto using check_error_state.
  do 2 eexists. repeat split. apply outcome_value_eq_refl.
Qed.

(** C7, as the code has it: the registry holds 73 entries, 72 of them for
    the codes 1 to 72 (every one of them) and one, [UnknownError], for the
    general failure code -1.  The literal names no key twice, and the class
    stored under a key has that key as its [errno]; so no class is stored
    under two keys. *)
Theorem errnos_registry_shape :
  size (errnos world0) = 73%nat ∧
  entries_between 1 72 world0 = 72%nat ∧
  entries_between (-1) (-1) world0 = 1%nat ∧
  (∀ k, is_Some (errnos world0 !! k) ↔ k = -1 ∨ 1 ≤ k ≤ 72) ∧
  errnos world0 !! (-1) = Some UnknownError ∧
  message_of (new UnknownError) = Some (Some "UNKNOWN_SERVER_ERROR") ∧
  NoDup errnos_display.*1 ∧
  (∀ k cls, errnos world0 !! k = Some cls →
            cls_errno (class_def cls) = Some k ∧ errno_of (new cls) = Some k) ∧
  (∀ k1 k2 cls, errnos world0 !! k1 = Some cls →
                errnos world0 !! k2 = Some cls → k1 = k2).
Proof.
  split; [by vm_compute|]. split; [by vm_compute|]. split; [by vm_compute|].
  split; [exact errnos_lookup_is_Some|]. split; [by vm_compute|].
  split; [by vm_compute|]. split; [exact errnos_display_NoDup|]. split.
  - intros k cls Hk. by destruct (errnos_entry _ _ Hk) as (? & ? & _).
  - intros k1 k2 cls H1 H2.
    destruct (errnos_entry _ _ H1) as (_ & E1 & _).
    destruct (errnos_entry _ _ H2) as (_ & E2 & _).
    simpl in E1, E2. congruence.
Qed.

(** C7 as stated fails: the entries for the codes 1 to 72 are 72, not 71,
    and with the entry for -1 the registry has 73 entries, not 72. *)
Lemma errnos_not_71_entries :
  entries_between 1 72 world0 ≠ 71%nat ∧ size (errnos world0) ≠ 72%nat.
Proof. by vm_compute. Qed.

(** ** Aliases *)

Lemma module_bindings_aliases :
  aliases =
  [("InvalidMessageError", CorruptMessage);
   ("StaleLeaderEpochCodeError", NetworkException);
   ("OffsetsLoadInProgressError", CoordinatorLoadInProgress);
   ("ConsumerCoordinatorNotAvailableError", CoordinatorNotAvailable);
   ("NotCoordinatorForConsumerError", NotCoordinator)].
Proof. by vm_compute. Qed.

Lemma module_bindings_NoDup : NoDup module_bindings.*1.
Proof. apply (bool_decide_unpack _). by vm_compute. Qed.

Lemma module_globals_binding (name : string) (cls : pyclass) :
  (name, cls) ∈ module_bindings → module_globals !! name = Some cls.
Proof. apply dict_display_Some, module_bindings_NoDup. Qed.

Lemma module_globals_class (cls : pyclass) :
  module_globals !! cls_name (class_def cls) = Some cls.
Proof. destruct cls; vm_compute; reflexivity. Qed.

Lemma alias_resolves (alias : string) (cls : pyclass) :
  (alias, cls) ∈ aliases →
  alias ≠ cls_name (class_def cls) ∧
  module_globals !! alias = Some cls ∧
  module_globals !! cls_name (class_def cls) = Some cls.
Proof.
  unfold aliases. rewrite list_elem_of_filter. intros [Hne Hin].
  auto using module_globals_binding, module_globals_class.
Qed.

(** C6, as the code has it: the module binds five legacy aliases, for the
    codes 2, 13, 14, 15 and 16.  Every alias is bound to the very class its
    canonical name is bound to, so calling either name builds the same
    error; in particular for code 13 ([StaleLeaderEpochCodeError] and
    [NetworkException]) and for code 14 ([OffsetsLoadInProgressError] and
    [CoordinatorLoadInProgress]) the two names give one [errno], [message]
    and [retriable] flag, those of the class the registry holds. *)
Theorem aliases_resolve_to_canonical :
  length aliases = 5%nat ∧
  (fun b => cls_errno (class_def b.2)) <$> aliases
    = [Some 2; Some 13; Some 14; Some 15; Some 16] ∧
  (∀ alias cls, (alias, cls) ∈ aliases →
     alias ≠ cls_name (class_def cls) ∧
     module_globals !! alias = module_globals !! cls_name (class_def cls) ∧
     instantiate alias = Some (new cls) ∧
     instantiate (cls_name (class_def cls)) = Some (new cls)) ∧
  (∃ e, instantiate "StaleLeaderEpochCodeError" = Some e ∧
        instantiate "NetworkException" = Some e ∧
        errnos world0 !! 13 = Some (inst_class e) ∧
        errno_of e = Some 13 ∧
        message_of e = Some (Some "NETWORK_EXCEPTION") ∧
        retriable_of e = Some true) ∧
  (∃ e, instantiate "OffsetsLoadInProgressError" = Some e ∧
        instantiate "CoordinatorLoadInProgress" = Some e ∧
        errnos world0 !! 14 = Some (inst_class e) ∧
        errno_of e = Some 14 ∧
        message_of e = Some (Some "COORDINATOR_LOAD_IN_PROGRESS") ∧
        retriable_of e = Some true).
Proof.
  split; [by rewrite module_bindings_aliases|].
  split; [by rewrite module_bindings_aliases|]. split.
  - intros alias cls Hin.
    destruct (alias_resolves _ _ Hin) as (Hne & Ha & Hc).
    unfold instantiate. rewrite Ha, Hc. by repeat split.
  - split.
    + exists (new NetworkException). by vm_compute.
    + exists (new CoordinatorLoadInProgress). by vm_compute.
Qed.

(** C6 as stated fails: the aliases are not two. *)
Lemma aliases_not_exactly_two : length aliases ≠ 2%nat.
Proof. by rewrite module_bindings_aliases. Qed.

(** C9: besides the aliases for the codes 13 and 14 the module binds three
    more: [InvalidMessageError] for code 2,
    [ConsumerCoordinatorNotAvailableError] for code 15 and
    [NotCoordinatorForConsumerError] for code 16.  Each is bound to the class
    of its canonical name, which is the class the registry holds for the
    code, so both names build errors with one [errno], [message] and
    [retriable] flag. *)
Theorem further_aliases :
  filter (fun b => cls_errno (class_def b.2) ∉ [Some 13; Some 14]) aliases
    = [("InvalidMessageError", CorruptMessage);
       ("ConsumerCoordinatorNotAvailableError", CoordinatorNotAvailable);
       ("NotCoordinatorForConsumerError", NotCoordinator)] ∧
  (∃ e, instantiate "InvalidMessageError" = Some e ∧
        instantiate "CorruptMessage" = Some e ∧
        errnos world0 !! 2 = Some (inst_class e) ∧
        errno_of e = Some 2 ∧
        message_of e = Some (Some "CORRUPT_MESSAGE") ∧
        retriable_of e = Some true) ∧
  (∃ e, instantiate "ConsumerCoordinatorNotAvailableError" = Some e ∧
        instantiate "CoordinatorNotAvailable" = Some e ∧
        errnos world0 !! 15 = Some (inst_class e) ∧
        errno_of e = Some 15 ∧
        message_of e = Some (Some "COORDINATOR_NOT_AVAILABLE") ∧
        retriable_of e = Some true) ∧
  (∃ e, instantiate "NotCoordinatorForConsumerError" = Some e ∧
        instantiate "NotCoordinator" = Some e ∧
        errnos world0 !! 16 = Some (inst_class e) ∧
        errno_of e = Some 16 ∧
        message_of e = Some (Some "NOT_COORDINATOR") ∧
        retriable_of e = Some true).
Proof.
  split; [by rewrite module_bindings_aliases; vm_compute|].
  split; [|split].
  - exists (new CorruptMessage). by vm_compute.
  - exists (new CoordinatorNotAvailable). by vm_compute.
  - exists (new NotCoordinator). by vm_compute.
Qed.

(** ** Further properties of the hierarchy and the registry *)

Lemma NoDup_fmap_inj {A B : Type} (f : A → B) (l : list A) (x y : A) :
  NoDup (f <$> l) → x ∈ l → y ∈ l → f x = f y → x = y.
Proof.
  induction l as [|a l IH]; intros Hnd Hx Hy Hf.
  { by apply elem_of_nil in Hx. }
  cbn in Hnd. apply NoDup_cons in Hnd as [Hfresh Hnd].
  apply elem_of_cons in Hx as [->|Hx]; apply elem_of_cons in Hy as [->|Hy].
  - done.
  - exfalso. apply Hfresh. rewrite Hf. by apply list_elem_of_fmap_2.
  - exfalso. apply Hfresh. rewrite <- Hf. by apply list_elem_of_fmap_2.
  - by apply IH.
Qed.

Lemma errnos_display_messages_NoDup :
  NoDup ((fun kv => message_of (new kv.2)) <$> errnos_display).
Proof. apply (bool_decide_unpack _). by vm_compute. Qed.

(** X1: the registry misses no class.  The two base classes are the only
    classes without an [errno] of their own, and every other class is the
    registry's entry for its [errno]. *)
Theorem errnos_complete (c : pyclass) :
  (cls_errno (class_def c) = None
   ↔ c = BrokerResponseError ∨ c = RetriableBrokerResponseError) ∧
  (∀ k, cls_errno (class_def c) = Some k → errnos world0 !! k = Some c) ∧
  (errno_of (new c) = None
   ↔ c = BrokerResponseError ∨ c = RetriableBrokerResponseError).
Proof.
  split; [|split].
  - destruct c; cbn; split; try discriminate;
      try (intros [?|?]; discriminate); auto.
  - intros k Hk. destruct c; cbn in Hk;
      first [discriminate Hk | injection Hk as <-; by vm_compute].
  - destruct c; vm_compute; split; try discriminate;
      try (intros [?|?]; discriminate); auto.
Qed.

(** X2: the [retriable] flag and the class say the same.  Whatever the class
    of an error and whatever its own attributes, [retriable] is defined and
    is true exactly when the class derives from
    [RetriableBrokerResponseError]; no class overrides the flag of its
    base. *)
Theorem retriable_iff_subclass (error : instance) :
  retriable_of error
  = Some (issubclass (inst_class error) RetriableBrokerResponseError) ∧
  (∀ c, cls_retriable (class_def c) ≠ None →
        c = BrokerResponseError ∨ c = RetriableBrokerResponseError).
Proof.
  destruct error as [c d]. split; [by destruct c|].
  intros c'. destruct c'; cbn; auto; congruence.
Qed.

(** X3: [message] is [None] exactly for the codes the registry does not
    know.  For a non-zero code the error [_check_error] returns has
    [message] [None] when the code is below -1 or above 72, and a string
    otherwise. *)
Theorem message_none_iff_unknown (code : Z) (Hnz : code ≠ 0) :
  ∃ error,
    _check_error (PyInt code) (Some false) world0
      = (Return (Some error), world0) ∧
    (message_of error = Some None ↔ code < -1 ∨ 72 < code) ∧
    ((∃ s, message_of error = Some (Some s)) ↔ -1 ≤ code ≤ 72) ∧
    (message_of error = Some None ↔ errnos world0 !! code = None).
Proof.
  exists (error_for world0 code).
  split; [by rewrite check_error_nonzero|].
  unfold error_for.
  destruct (errnos world0 !! code) as [cls|] eqn:Hk.
  - assert (-1 ≤ code ≤ 72) as Hin.
    { assert (is_Some (errnos world0 !! code)) as Hs by (by eexists).
      apply errnos_lookup_is_Some in Hs. lia. }
    destruct (errnos_entry _ _ Hk) as (_ & _ & [s Hs] & Hmsg & _).
    simpl in Hs, Hmsg.
    destruct (cls_message (class_def cls)) as [[s'|]|]; try discriminate Hs.
    rewrite Hmsg. split; [split; [discriminate|lia]|].
    split; [split; [done|by eexists]|]. split; discriminate.
  - apply errnos_lookup_None in Hk.
    split; [split; [lia|done]|].
    split; [split; [intros [s Hs]; discriminate Hs|lia]|]. done.
Qed.

Lemma message_none_iff_unknown_witness :
  73 ≠ 0 ∧
  ∃ error,
    _check_error (PyInt 73) (Some false) world0
      = (Return (Some error), world0) ∧
    (message_of error = Some None ↔ 73 < -1 ∨ 72 < 73) ∧
    ((∃ s, message_of error = Some (Some s)) ↔ -1 ≤ 73 ≤ 72) ∧
    (message_of error = Some None ↔ errnos world0 !! 73 = None).
Proof.
  assert (73 ≠ 0) as Hnz by lia.
  split; [exact Hnz|]. exact (message_none_iff_unknown 73 Hnz).
Defined.

(** X4: the [message] tells the code.  Two registry entries whose classes
    have the same [message] are one entry. *)
Theorem message_determines_code (k1 k2 : Z) (c1 c2 : pyclass)
  (H1 : errnos world0 !! k1 = Some c1) (H2 : errnos world0 !! k2 = Some c2)
  (Hmsg : message_of (new c1) = message_of (new c2)) :
  k1 = k2 ∧ c1 = c2.
Proof.
  apply errnos_lookup_Some in H1, H2.
  pose proof (NoDup_fmap_inj (fun kv => message_of (new kv.2)) errnos_display
                (k1, c1) (k2, c2) errnos_display_messages_NoDup H1 H2 Hmsg) as Heq.
  by inversion Heq.
Qed.

Lemma message_determines_code_witness :
  errnos world0 !! 13 = Some NetworkException ∧
  message_of (new NetworkException) = message_of (new NetworkException) ∧
  13 = 13 ∧ NetworkException = NetworkException.
Proof.
  assert (errnos world0 !! 13 = Some NetworkException) as H13 by (by vm_compute).
  split; [exact H13|]. split; [reflexivity|].
  exact (message_determines_code 13 13 NetworkException NetworkException
           H13 H13 eq_refl).
Defined.

(** X5: what the module's names resolve to.  A name is bound to a class of
    the hierarchy exactly when it is the class's own name or one of its
    aliases; so every class can be reached under its own name, no two
    classes share a name, and no alias hides a class. *)
Theorem module_globals_resolution (name : string) (c : pyclass) :
  (module_globals !! name = Some c
   ↔ name = cls_name (class_def c) ∨ (name, c) ∈ aliases) ∧
  module_globals !! cls_name (class_def c) = Some c ∧
  (∀ c', cls_name (class_def c') = cls_name (class_def c) → c' = c).
Proof.
  split; [|split].
  - split.
    + intros Hname.
      apply dict_display_inv in Hname; [|exact module_bindings_NoDup].
      destruct (decide (name = cls_name (class_def c))) as [|Hne]; [by left|].
      right. unfold aliases. by apply list_elem_of_filter.
    + intros [->|Hal].
      * apply module_globals_class.
      * by destruct (alias_resolves _ _ Hal) as (_ & ? & _).
  - apply module_globals_class.
  - intros c' Hname. pose proof (module_globals_class c') as Hc'.
    rewrite Hname, module_globals_class in Hc'. by injection Hc'.
Qed.

(** ** Further properties of the classifier *)

(** The outcome of a call on an object that is an [int] or has an [error]
    attribute. *)
Lemma check_error_code (o : pyobj) (code : Z) (mode : option bool) (w : world) :
  isinstance_int o = Some code ∨ getattr_error o = Some code →
  _check_error o mode w =
  if decide (code = 0) then (Return None, w)
  else (deliver (default true mode) (error_for w code), w).
Proof.
  intros [Hint|Herr].
  - destruct o; try discriminate Hint. injection Hint as ->.
    apply check_error_int.
  - rewrite (check_error_attr _ _ _ _ Herr). apply check_error_int.
Qed.



(** X7: what each mode can hand back.  With [raiseException=False] the call
    never raises a broker error; with [raiseException] true or left out the
    only value it ever returns is [None].  In return mode, on an [int] or an
    object with an [error] attribute, it always returns. *)
Theorem check_error_mode_discipline (o : pyobj) (w : world) :
  (∀ error, (_check_error o (Some false) w).1 ≠ Raise (BrokerExn error)) ∧
  (∀ mode v, default true mode = true →
             (_check_error o mode w).1 = Return v → v = None) ∧
  (is_Some (isinstance_int o) ∨ is_Some (getattr_error o) →
   ∃ v, (_check_error o (Some false) w).1 = Return v).
Proof.
  destruct (isinstance_int o) as [code|] eqn:Hint;
    [|destruct (getattr_error o) as [code|] eqn:Herr].
  3: { rewrite !check_error_no_attr by done. split; [done|]. split.
       - intros mode v _. by rewrite check_error_no_attr.
       - intros [[? ?]|[? ?]]; discriminate. }
  all: assert (∀ mode, _check_error o mode w =
         if decide (code = 0) then (Return None, w)
         else (deliver (default true mode) (error_for w code), w)) as Hrun
         by (intros mode; apply check_error_code; auto).
  all: split; [|split].
  all: try (intros error; rewrite Hrun; by destruct (decide (code = 0))).
  all: try (intros mode v Hmode; rewrite Hrun, Hmode;
            destruct (decide (code = 0)); simpl; intros Hv;
            [by injection Hv as <- | discriminate Hv]).
  all: intros _; rewrite Hrun; destruct (decide (code = 0)); by eexists.
Qed.

(** X8: the whole table, under both call shapes.  For an [int] or a
    response carrying a non-zero code, the error [_check_error] delivers
    reads that code back as its [errno], and is retriable (by its flag and,
    alike, by its class) exactly for the codes 2, 3, 5, 6, 7, 13, 14, 15, 16,
    19, 20, 41, 56, 70, 71 and 72; unknown codes are never retriable. *)
Theorem classified_error_table (o : pyobj) (code : Z) (mode : option bool)
  (Hcode : isinstance_int o = Some code ∨ getattr_error o = Some code)
  (Hnz : code ≠ 0) :
  ∃ error,
    _check_error o mode world0 = (deliver (default true mode) error, world0) ∧
    errno_of error = Some code ∧
    retriable_of error
    = Some (bool_decide (code ∈ [2; 3; 5; 6; 7; 13; 14; 15; 16; 19; 20; 41;
                                 56; 70; 71; 72])) ∧
    issubclass (inst_class error) RetriableBrokerResponseError
    = bool_decide (code ∈ [2; 3; 5; 6; 7; 13; 14; 15; 16; 19; 20; 41; 56; 70;
                           71; 72]).
Proof.
  exists (error_for world0 code).
  rewrite (check_error_code o code) by done.
  destruct (decide (code = 0)); [done|]. split; [done|].
  split; [apply error_for_errno|].
  rewrite <- retriable_codes_list.
  assert (issubclass (inst_class (error_for world0 code))
            RetriableBrokerResponseError
          = bool_decide (code ∈ retriable_codes)) as Hsub.
  { unfold error_for.
    destruct (errnos world0 !! code) as [cls|] eqn:Hk.
    - by apply errnos_retriable.
    - apply errnos_lookup_None in Hk. symmetry. apply bool_decide_eq_false.
      rewrite retriable_codes_list. intros Hin.
      repeat (apply elem_of_cons in Hin as [->|Hin]; [lia|]).
      by apply elem_of_nil in Hin. }
  split; [|exact Hsub]. rewrite <- Hsub.
  destruct (error_for world0 code) as [c d]. by destruct c.
Qed.

Lemma classified_error_table_witness :
  (isinstance_int (PyFetchResponse (FetchResponse.mk "t" 0 6 0 [])) = Some 6 ∨
   getattr_error (PyFetchResponse (FetchResponse.mk "t" 0 6 0 [])) = Some 6) ∧
  6 ≠ 0 ∧
  ∃ error,
    _check_error (PyFetchResponse (FetchResponse.mk "t" 0 6 0 [])) None world0
      = (deliver (default true None) error, world0) ∧
    errno_of error = Some 6 ∧
    retriable_of error
    = Some (bool_decide (6 ∈ [2; 3; 5; 6; 7; 13; 14; 15; 16; 19; 20; 41;
                              56; 70; 71; 72])) ∧
    issubclass (inst_class error) RetriableBrokerResponseError
    = bool_decide (6 ∈ [2; 3; 5; 6; 7; 13; 14; 15; 16; 19; 20; 41; 56; 70;
                        71; 72]).
Proof.
  assert (6 ≠ 0) as Hnz by lia.
  split; [right; reflexivity|]. split; [exact Hnz|].
  exact (classified_error_table
           (PyFetchResponse (FetchResponse.mk "t" 0 6 0 [])) 6 None
           (or_intror eq_refl) Hnz).
Defined.

(** X9: a call reads one registry entry, at the time of the call.  In two
    states whose registries agree on a code, the calls on that code end
    alike, whatever else the registries hold.  In any state, when the
    registry has a class for a non-zero code the call delivers a bare
    instance of it, without setting [errno] on it; and 0 is success even in
    a state whose registry has an entry for 0. *)
Theorem check_error_reads_one_entry (code : Z) (mode : option bool)
  (w1 w2 : world) (Hsame : errnos w1 !! code = errnos w2 !! code) :
  (_check_error (PyInt code) mode w1).1 = (_check_error (PyInt code) mode w2).1 ∧
  (∀ cls, errnos w1 !! code = Some cls → code ≠ 0 →
     _check_error (PyInt code) mode w1
     = (deliver (default true mode) (new cls), w1) ∧
     inst_errno (new cls) = None) ∧
  (∀ cls, errnos w1 !! 0 = Some cls →
     _check_error (PyInt 0) mode w1 = (Return None, w1)).
Proof.
  split; [|split].
  - rewrite !check_error_int. destruct (decide (code = 0)); [done|].
    simpl. unfold error_for. by rewrite Hsame.
  - intros cls Hk Hnz. rewrite check_error_nonzero by done.
    unfold error_for. by rewrite Hk.
  - intros cls _. apply check_error_zero.
Qed.

Lemma check_error_reads_one_entry_witness :
  errnos world0 !! 3 = errnos (World (<[99 := UnknownError]> (errnos world0))) !! 3 ∧
  (_check_error (PyInt 3) None world0).1
  = (_check_error (PyInt 3) None
       (World (<[99 := UnknownError]> (errnos world0)))).1.
Proof.
  assert (errnos world0 !! 3
          = errnos (World (<[99 := UnknownError]> (errnos world0))) !! 3)
    as Hsame by (by vm_compute).
  split; [exact Hsame|].
  exact (proj1 (check_error_reads_one_entry 3 None world0
                  (World (<[99 := UnknownError]> (errnos world0))) Hsame)).
Defined.

(** ** The exception classes as handlers *)

Lemma kafka_mro_broker (c : pyclass) :
  kafka_mro (Broker c) = ((Broker <$> mro c) ++ [KafkaError])%list.
Proof. by destruct c. Qed.

(** X10: what an [except] clause catches.  Every exception class of the
    module derives from [KafkaError], and only [ClientError], [RestartError]
    and [RestopError] derive from [ClientError].  A broker error is caught
    by [KafkaError], by [BrokerResponseError] and by the broker classes its
    own class derives from, and by no other class of the module; so
    [except RetriableBrokerResponseError] catches exactly the errors whose
    [retriable] flag is true.  The [AttributeError] of a bad argument is
    caught by no class of the module. *)
Theorem handlers_of_errors (error : instance) (handler : kafka_class) :
  (∀ k, KafkaError ∈ kafka_mro k) ∧
  (∀ k, ClientError ∈ kafka_mro k
        ↔ k = ClientError ∨ k = RestartError ∨ k = RestopError) ∧
  (caught_by (BrokerExn error) handler = true
   ↔ handler = KafkaError ∨
     ∃ c, handler = Broker c ∧ issubclass (inst_class error) c = true) ∧
  caught_by (BrokerExn error) (Broker BrokerResponseError) = true ∧
  retriable_of error
  = Some (caught_by (BrokerExn error) (Broker RetriableBrokerResponseError)) ∧
  (∀ attr, caught_by (AttributeError attr) handler = false).
Proof.
  split; [|split; [|split; [|split; [|split]]]].
  - intros k. destruct k as [| | | | |c| | | | | | | | | | | | | |];
      try (apply (bool_decide_unpack _); by vm_compute).
    rewrite kafka_mro_broker. apply elem_of_app. right.
    by apply list_elem_of_singleton.
  - intros k. destruct k as [| | | | |c| | | | | | | | | | | | | |];
      try (split;
           [ intros Hin;
             first [ by auto
                   | exfalso; revert Hin; apply (bool_decide_unpack _);
                     by vm_compute ]
           | intros [?|[?|?]]; try discriminate;
             apply (bool_decide_unpack _); by vm_compute ]).
    rewrite kafka_mro_broker. split.
    + intros Hin. apply elem_of_app in Hin as [Hin|Hin].
      * apply list_elem_of_fmap in Hin as (c' & Hc' & _). discriminate Hc'.
      * apply list_elem_of_singleton in Hin. discriminate Hin.
    + intros [?|[?|?]]; discriminate.
  - unfold caught_by, issubclass. rewrite bool_decide_eq_true, kafka_mro_broker.
    rewrite elem_of_app, list_elem_of_fmap, list_elem_of_singleton. split.
    + intros [(c & -> & Hc) | ->]; [right|by left].
      exists c. split; [done|]. by apply bool_decide_eq_true.
    + intros [-> | (c & -> & Hc)]; [by right|left].
      exists c. split; [done|]. by apply bool_decide_eq_true in Hc.
  - destruct error as [c d]. by destruct c.
  - destruct error as [c d]. by destruct c.
  - done.
Qed.

(** ** The struct declarations *)



(** ** Telling results apart *)

(** X13: the result tells the code.  Two calls in one mode, on any two
    integers, end in value-equal results exactly when the integers are
    equal: success is never mistaken for an error, and the errors of two
    different codes, known or not, differ in [errno]. *)
Theorem check_error_separates_codes (c1 c2 : Z) (mode : option bool) :
  outcome_value_eq (_check_error (PyInt c1) mode world0).1
                   (_check_error (PyInt c2) mode world0).1
  ↔ c1 = c2.
Proof.
  split; [|intros ->; apply outcome_value_eq_refl].
  rewrite !check_error_int.
  pose proof (error_for_errno c1) as E1. pose proof (error_for_errno c2) as E2.
  destruct (decide (c1 = 0)) as [->|N1], (decide (c2 = 0)) as [->|N2];
    simpl; unfold deliver; destruct (default true mode); simpl;
    try done; intros (Herrno & _ & _); congruence.
Qed.
